(** * Carcino Term Finder: the lookup pipeline of [main.py]

    A shallow embedding of the two definition clients
    ([get_medlineplus_definition], [get_wikipedia_definition]), of the
    worker that chains them ([perform_search]) and of the GUI entry point
    ([search_event]), followed by the properties of the lookup pipeline.

    Python values are modelled as follows.
    - [str] is a sequence of Unicode code points ([list N]).
    - A function that returns [str] or [None] returns [option str].
    - Exceptions are values of [exn]; code that may raise lives in the
      monad [Eff], which threads the program state (the widgets, the log
      of network calls and the Tk callback queue) through every step,
      also through a raised exception.
    - The network and the XML parser are a [World]: what each library call
      answers for each argument. *)

From Stdlib Require Import String Ascii DecimalString.
From Stdlib Require Import List ZArith NArith Lia Bool.
Import ListNotations.

Set Warnings "-register-all".

(* ===================================================================== *)
(** ** Python strings *)
(* ===================================================================== *)

Module PyStr.

Definition str := list N.

(** An ASCII literal of the source as a [str]. *)
Definition py (s : string) : str := map N_of_ascii (list_ascii_of_string s).

Definition LF : N := 10.

Fixpoint eqb (a b : str) : bool :=
  match a, b with
  | [], [] => true
  | x :: a', y :: b' => N.eqb x y && eqb a' b'
  | _, _ => false
  end.

(** [str.isspace] for one code point (CPython's [Py_UNICODE_ISSPACE]). *)
Definition isspace (c : N) : bool :=
  ((9 <=? c) && (c <=? 13) || (28 <=? c) && (c <=? 32)
   || (c =? 133) || (c =? 160) || (c =? 5760)
   || (8192 <=? c) && (c <=? 8202)
   || (c =? 8232) || (c =? 8233) || (c =? 8239) || (c =? 8287)
   || (c =? 12288))%N.

Fixpoint lstrip (s : str) : str :=
  match s with
  | c :: s' => if isspace c then lstrip s' else s
  | [] => []
  end.

Definition rstrip (s : str) : str := rev (lstrip (rev s)).

(** [s.strip()] *)
Definition strip (s : str) : str := rstrip (lstrip s).

(** [sep.join(parts)] *)
Fixpoint join (sep : str) (parts : list str) : str :=
  match parts with
  | [] => []
  | [p] => p
  | p :: ps => p ++ sep ++ join sep ps
  end.

(** Truth value of a [str]: non-empty. *)
Definition truthy (s : str) : bool :=
  match s with [] => false | _ :: _ => true end.

(** [str.lower] on the ASCII letters (tag names are ASCII). *)
Definition ascii_lower (c : N) : N :=
  if ((65 <=? c) && (c <=? 90))%N then (c + 32)%N else c.

Definition is_ascii_letter (c : N) : bool :=
  ((65 <=? c) && (c <=? 90) || (97 <=? c) && (c <=? 122))%N.

(** [str(n)] for a non-negative integer. *)
Definition of_nonneg (n : Z) : str :=
  py (NilEmpty.string_of_uint (N.to_uint (Z.to_N n))).

End PyStr.
Import PyStr.

(* ===================================================================== *)
(** ** BeautifulSoup with the [html.parser] tree builder *)
(* ===================================================================== *)

(** The objects of a parsed document.  The program looks at tag names and
    at strings only, so a tag keeps its name and its contents. *)
Inductive PageElement :=
| NavigableString (s : str)
| Comment (s : str)
| Tag (name : str) (contents : list PageElement).

(** The contents of the [BeautifulSoup] object itself. *)
Definition Soup := list PageElement.

Module HtmlParser.

(** The library calls [BeautifulSoup(markup, 'html.parser')] tokenises
    [markup] with [html.parser] and builds the tree from the parser's
    events.  The model covers the fragment of HTML made of character data,
    start tags [<name ...>] and [<name .../>] with quoted or bare attribute
    values, end tags [</name>] and comments [<!-- ... -->].  Character
    references, declarations, processing instructions, the raw-text
    elements and unterminated constructs are outside the fragment: the
    functions are total and keep such text as character data. *)

Inductive token :=
| Data (s : str)
| StartTag (name : str)
| StartEndTag (name : str)
| EndTag (name : str)
| CommentTok (s : str).

Definition LT : N := 60.   (* < *)
Definition GT : N := 62.   (* > *)
Definition AMP : N := 38.  (* & *)
Definition SLASH : N := 47.
Definition EQUALS : N := 61.
Definition DQUOTE : N := 34.
Definition SQUOTE : N := 39.

(** [interesting_normal = re.compile('[&<]')] *)
Definition interesting (c : N) : bool := (c =? AMP)%N || (c =? LT)%N.

(** The longest prefix free of [p], and what follows it. *)
Fixpoint break_at (p : N -> bool) (s : str) : str * str :=
  match s with
  | [] => ([], [])
  | c :: s' =>
      if p c then ([], s)
      else let (d, r) := break_at p s' in (c :: d, r)
  end.

Fixpoint starts_with (pat s : str) : option str :=
  match pat, s with
  | [], _ => Some s
  | p :: pat', c :: s' => if (p =? c)%N then starts_with pat' s' else None
  | _ :: _, [] => None
  end.

(** The text before the first occurrence of [pat] and the text after it. *)
Fixpoint find_sub (pat s : str) : option (str * str) :=
  match starts_with pat s with
  | Some r => Some ([], r)
  | None =>
      match s with
      | [] => None
      | c :: s' =>
          match find_sub pat s' with
          | Some (d, r) => Some (c :: d, r)
          | None => None
          end
      end
  end.

(** The characters that end a tag name in [tagfind_tolerant]. *)
Definition name_end (c : N) : bool :=
  (c =? 9)%N || (c =? 10)%N || (c =? 13)%N || (c =? 12)%N || (c =? 32)%N
  || (c =? SLASH)%N || (c =? GT)%N || (c =? 0)%N.

(** Python's regular-expression class [\s] on the ASCII range. *)
Definition re_space (c : N) : bool :=
  (c =? 9)%N || (c =? 10)%N || (c =? 11)%N || (c =? 12)%N || (c =? 13)%N
  || (c =? 32)%N.

(** From the end of the tag name to the closing [>]: [quote] is the open
    quote of an attribute value, [after_eq] says that a value may start
    here, [slash] that the previous character was [/].  The answer says
    whether the tag ends in [/>], and gives the text after the tag. *)
Fixpoint scan_tag_end (s : str) (quote : option N) (after_eq slash : bool)
  : option (bool * str) :=
  match s with
  | [] => None
  | c :: s' =>
      match quote with
      | Some q =>
          if (c =? q)%N then scan_tag_end s' None false false
          else scan_tag_end s' quote false false
      | None =>
          if (c =? GT)%N then Some (slash, s')
          else if ((c =? DQUOTE)%N || (c =? SQUOTE)%N) && after_eq
               then scan_tag_end s' (Some c) false false
          else if (c =? EQUALS)%N then scan_tag_end s' None true false
          else if re_space c then scan_tag_end s' None after_eq false
          else scan_tag_end s' None false (c =? SLASH)%N
      end
  end.

(** The markup that starts at a [<]; [rest] is the text after that [<]. *)
Definition parse_markup (rest : str) : option (token * str) :=
  match starts_with (py "!--") rest with
  | Some body =>
      match find_sub (py "-->") body with
      | Some (c, r) => Some (CommentTok c, r)
      | None => None
      end
  | None =>
      match rest with
      | c :: rest' =>
          if is_ascii_letter c then
            let (name, r) := break_at name_end rest in
            match scan_tag_end r None false false with
            | Some (true, r') => Some (StartEndTag (map ascii_lower name), r')
            | Some (false, r') => Some (StartTag (map ascii_lower name), r')
            | None => None
            end
          else if (c =? SLASH)%N then
            match rest' with
            | c' :: _ =>
                if is_ascii_letter c' then
                  let (name, r) := break_at name_end rest' in
                  match break_at (N.eqb GT) r with
                  | (_, _ :: r') => Some (EndTag (map ascii_lower name), r')
                  | (_, []) => None
                  end
                else None
            | [] => None
            end
          else None
      | [] => None
      end
  end.

(** [HTMLParser.goahead]: each round reports one token and moves on by at
    least one character, so [length s] rounds consume [s]. *)
Fixpoint goahead (fuel : nat) (s : str) : list token :=
  match fuel, s with
  | S fuel', c :: rest =>
      if (c =? LT)%N then
        match parse_markup rest with
        | Some (tok, r) => tok :: goahead fuel' r
        | None => Data [c] :: goahead fuel' rest
        end
      else if (c =? AMP)%N then Data [c] :: goahead fuel' rest
      else let (d, r) := break_at interesting s in Data d :: goahead fuel' r
  | _, _ => []
  end.

Definition feed (markup : str) : list token := goahead (length markup) markup.

(** *** The tree builder *)

(** [tagStack] lists the open tags, innermost first; the contents of an
    open tag and of the document are kept newest first.
    [already_closed_empty_element] is the list the parser keeps of the
    void tags it closed by itself. *)
Record TreeBuilder := {
  current_data : str;
  tagStack : list (str * list PageElement);
  document : list PageElement;
  already_closed_empty_element : list str
}.

Definition reset : TreeBuilder :=
  {| current_data := []; tagStack := []; document := [];
     already_closed_empty_element := [] |}.

Definition object_was_parsed (o : PageElement) (b : TreeBuilder) : TreeBuilder :=
  match tagStack b with
  | (name, cs) :: st =>
      {| current_data := current_data b; tagStack := (name, o :: cs) :: st;
         document := document b;
         already_closed_empty_element := already_closed_empty_element b |}
  | [] =>
      {| current_data := current_data b; tagStack := [];
         document := o :: document b;
         already_closed_empty_element := already_closed_empty_element b |}
  end.

(** [ASCII_SPACES = '\x20\x0a\x09\x0c\x0d'] *)
Definition ascii_space (c : N) : bool :=
  (c =? 32)%N || (c =? 10)%N || (c =? 9)%N || (c =? 12)%N || (c =? 13)%N.

Definition preserve_whitespace (name : str) : bool :=
  PyStr.eqb name (py "pre") || PyStr.eqb name (py "textarea").

(** [endData]: the pending character data becomes one string object; a
    string of ASCII spaces outside [pre] and [textarea] shrinks to one
    newline or one space. *)
Definition endData (container : str -> PageElement) (b : TreeBuilder) : TreeBuilder :=
  match current_data b with
  | [] => b
  | _ :: _ =>
      let d := current_data b in
      let d' :=
        if negb (existsb (fun f => preserve_whitespace (fst f)) (tagStack b))
           && forallb ascii_space d
        then (if existsb (N.eqb LF) d then [LF] else [32%N])
        else d in
      object_was_parsed (container d')
        {| current_data := []; tagStack := tagStack b; document := document b;
           already_closed_empty_element := already_closed_empty_element b |}
  end.

Definition pushTag (name : str) (b : TreeBuilder) : TreeBuilder :=
  {| current_data := current_data b; tagStack := (name, []) :: tagStack b;
     document := document b;
     already_closed_empty_element := already_closed_empty_element b |}.

Definition popTag (b : TreeBuilder) : TreeBuilder :=
  match tagStack b with
  | (name, cs) :: st =>
      object_was_parsed (Tag name (rev cs))
        {| current_data := current_data b; tagStack := st; document := document b;
           already_closed_empty_element := already_closed_empty_element b |}
  | [] => b
  end.

(** How many tags [_popToTag name] pops: down to the innermost open tag
    called [name], none when no such tag is open. *)
Fixpoint depth_of (name : str) (st : list (str * list PageElement)) : option nat :=
  match st with
  | [] => None
  | (n, _) :: st' =>
      if PyStr.eqb n name then Some 1%nat
      else option_map S (depth_of name st')
  end.

Definition _popToTag (name : str) (b : TreeBuilder) : TreeBuilder :=
  match depth_of name (tagStack b) with
  | Some k => Nat.iter k popTag b
  | None => b
  end.

Definition empty_element_tags : list str :=
  map py ["area"; "base"; "br"; "col"; "embed"; "hr"; "img"; "input";
          "keygen"; "link"; "menuitem"; "meta"; "param"; "source"; "track";
          "wbr"; "basefont"; "bgsound"; "command"; "frame"; "image";
          "isindex"; "nextid"; "spacer"]%string.

(** [list.remove]: the first occurrence goes. *)
Fixpoint remove_first (name : str) (l : list str) : list str :=
  match l with
  | [] => []
  | x :: l' => if PyStr.eqb x name then l' else x :: remove_first name l'
  end.

(** The tree's [handle_endtag] and [handle_starttag]. *)
Definition soup_handle_endtag (name : str) (b : TreeBuilder) : TreeBuilder :=
  _popToTag name (endData NavigableString b).

Definition soup_handle_starttag (name : str) (b : TreeBuilder) : TreeBuilder :=
  pushTag name (endData NavigableString b).

(** The parser's [handle_endtag]: an end tag for a void tag that the
    parser closed by itself is only checked off its list. *)
Definition handle_endtag (name : str) (b : TreeBuilder) : TreeBuilder :=
  if existsb (PyStr.eqb name) (already_closed_empty_element b) then
    {| current_data := current_data b; tagStack := tagStack b;
       document := document b;
       already_closed_empty_element :=
         remove_first name (already_closed_empty_element b) |}
  else soup_handle_endtag name b.

(** The parser's [handle_starttag]; [handle_empty_element] is false when
    it is called for a tag written [<name .../>]. *)
Definition handle_starttag (name : str) (handle_empty_element : bool)
  (b : TreeBuilder) : TreeBuilder :=
  let b' := soup_handle_starttag name b in
  if existsb (PyStr.eqb name) empty_element_tags && handle_empty_element then
    let b'' := soup_handle_endtag name b' in
    {| current_data := current_data b''; tagStack := tagStack b'';
       document := document b'';
       already_closed_empty_element := already_closed_empty_element b'' ++ [name] |}
  else b'.

Definition handle (b : TreeBuilder) (t : token) : TreeBuilder :=
  match t with
  | Data d =>
      {| current_data := current_data b ++ d; tagStack := tagStack b;
         document := document b;
         already_closed_empty_element := already_closed_empty_element b |}
  | StartTag name => handle_starttag name true b
  | StartEndTag name => handle_endtag name (handle_starttag name false b)
  | EndTag name => handle_endtag name b
  | CommentTok c =>
      let b' := endData NavigableString b in
      endData Comment
        {| current_data := c; tagStack := tagStack b'; document := document b';
           already_closed_empty_element := already_closed_empty_element b' |}
  end.

(** End of the document: the pending data is flushed and every open tag
    is closed. *)
Definition close (b : TreeBuilder) : Soup :=
  let b' := endData NavigableString b in
  rev (document (Nat.iter (length (tagStack b')) popTag b')).

End HtmlParser.

(** [BeautifulSoup(markup, 'html.parser')] *)
Definition BeautifulSoup (markup : str) : Soup :=
  HtmlParser.close (fold_left HtmlParser.handle (HtmlParser.feed markup) HtmlParser.reset).

(** [soup.find_all(name)]: the tags called [name], in document order. *)
Fixpoint find_all_in (name : str) (e : PageElement) : list PageElement :=
  match e with
  | Tag n cs =>
      (if PyStr.eqb n name then [e] else []) ++ flat_map (find_all_in name) cs
  | _ => []
  end.

Definition find_all (name : str) (soup : Soup) : list PageElement :=
  flat_map (find_all_in name) soup.

(** [element.get_text(separator, strip=True)]: the strings of the tree in
    document order (comments are not part of the text), each stripped, the
    empty ones dropped, joined by [separator]. *)
Fixpoint _all_strings (e : PageElement) : list str :=
  match e with
  | NavigableString s => [s]
  | Comment _ => []
  | Tag _ cs => flat_map _all_strings cs
  end.

Definition get_text (separator : str) (soup : Soup) : str :=
  join separator
    (filter truthy (map strip (flat_map _all_strings soup))).

(* ===================================================================== *)
(** ** xml.etree.ElementTree *)
(* ===================================================================== *)

(** An [Element]: tag, attribute dictionary, text before the first child
    ([None] when there is none) and children.  The program never reads an
    element's tail. *)
Inductive Element :=
| mkElement (tag : str) (attrib : list (str * str)) (text : option str)
            (children : list Element).

Definition tag (e : Element) : str := let (t, _, _, _) := e in t.
Definition attrib (e : Element) : list (str * str) := let (_, a, _, _) := e in a.
Definition text (e : Element) : option str := let (_, _, x, _) := e in x.
Definition children (e : Element) : list Element := let (_, _, _, c) := e in c.

(** [element.get(key)] *)
Fixpoint get (key : str) (a : list (str * str)) : option str :=
  match a with
  | [] => None
  | (k, v) :: a' => if PyStr.eqb k key then Some v else get key a'
  end.

(** [element.iter()]: the element and its descendants in document order. *)
Fixpoint iter (e : Element) : list Element :=
  match e with
  | mkElement _ _ _ cs => e :: flat_map iter cs
  end.

(** The path [.//name[@key="value"]]: the proper descendants of [root]
    with tag [name] whose attribute [key] is [value], in document order. *)
Definition findall (name key value : str) (root : Element) : list Element :=
  filter (fun e => PyStr.eqb (tag e) name &&
                   match get key (attrib e) with
                   | Some v => PyStr.eqb v value
                   | None => false
                   end)
         (flat_map iter (children root)).

(** [root.find(path)]: the first match or [None]. *)
Definition find (name key value : str) (root : Element) : option Element :=
  hd_error (findall name key value root).

(* ===================================================================== *)
(** ** Exceptions, the outside world and the program state *)
(* ===================================================================== *)

(** The exception classes the handlers tell apart; each carries [str(e)].
    [RequestException] stands for [requests.exceptions.RequestException]
    and its subclasses (connection errors, timeouts, [HTTPError]);
    [OtherException] for every other subclass of [Exception]. *)
Inductive exn :=
| RequestException (descr : str)
| ParseError (descr : str)
| PageError (descr : str)
| DisambiguationError (options : list str) (descr : str)
| OtherException (descr : str).

Definition exn_str (e : exn) : str :=
  match e with
  | RequestException d | ParseError d | PageError d
  | DisambiguationError _ d | OtherException d => d
  end.

Definition bytes := list Byte.byte.

(** [requests.Response] *)
Record Response := {
  status_code : Z;
  reason : str;
  url : str;
  content : bytes
}.

(** What the libraries answer: [requests.get(url, params, timeout)],
    [ET.fromstring(body)] and
    [wikipedia.summary(title, sentences, auto_suggest)]. *)
Record World := {
  requests_get : str -> list (str * str) -> Z -> exn + Response;
  ET_fromstring : bytes -> exn + Element;
  wikipedia_summary : str -> Z -> bool -> exn + str
}.

(** The network calls the program makes. *)
Inductive call :=
| HttpGet (url : str) (params : list (str * str)) (timeout : Z)
| WikiSummary (title : str) (sentences : Z) (auto_suggest : bool).

Inductive widget_state := normal | disabled.

Record Widget := { state : widget_state; contents : str }.

(** The three widgets the program reads or writes. *)
Record Gui := {
  search_entry : Widget;
  search_button : Widget;
  result_textbox : Widget
}.

(** [workers] holds the arguments of the [perform_search] threads that
    were started and have not run yet, [after_queue] the arguments of the
    [update_gui_with_result] callbacks handed to [self.after]. *)
Record State := {
  gui : Gui;
  calls : list call;
  workers : list str;
  after_queue : list str
}.

(** Code that may raise: the state is kept also when it does. *)
Definition Eff (A : Type) : Type := State -> (exn + A) * State.

Definition ret {A} (a : A) : Eff A := fun st => (inr a, st).

Definition raise {A} (e : exn) : Eff A := fun st => (inl e, st).

Definition bind {A B} (c : Eff A) (k : A -> Eff B) : Eff B :=
  fun st =>
    match c st with
    | (inr a, st') => k a st'
    | (inl e, st') => (inl e, st')
    end.

Notation "x <- c ;; k" := (bind c (fun x => k))
  (at level 61, c at next level, right associativity).
Notation "c ;;; k" := (bind c (fun _ => k))
  (at level 61, right associativity).

(** [try: body  except ... as e: handler e] *)
Definition try_except {A} (body : Eff A) (handler : exn -> Eff A) : Eff A :=
  fun st =>
    match body st with
    | (inl e, st') => handler e st'
    | (inr a, st') => (inr a, st')
    end.

(** The value or the exception of a library call that has no effect on
    the program state. *)
Definition lift {A} (r : exn + A) : Eff A := fun st => (r, st).

Definition log (c : call) : Eff unit :=
  fun st =>
    (inr tt, {| gui := gui st; calls := calls st ++ [c];
                workers := workers st; after_queue := after_queue st |}).

Definition modify_gui (f : Gui -> Gui) : Eff unit :=
  fun st =>
    (inr tt, {| gui := f (gui st); calls := calls st;
                workers := workers st; after_queue := after_queue st |}).

(** [response.raise_for_status()]: [HTTPError] for the statuses
    400 to 599. *)
Definition raise_for_status (r : Response) : Eff unit :=
  if (400 <=? status_code r)%Z && (status_code r <? 500)%Z then
    raise (RequestException
             (of_nonneg (status_code r) ++ py " Client Error: " ++ reason r
              ++ py " for url: " ++ url r))
  else if (500 <=? status_code r)%Z && (status_code r <? 600)%Z then
    raise (RequestException
             (of_nonneg (status_code r) ++ py " Server Error: " ++ reason r
              ++ py " for url: " ++ url r))
  else ret tt.

(* ===================================================================== *)
(** ** The definition clients *)
(* ===================================================================== *)

(** The literal of [li.insert(0, ...)]: a line feed, the three code points
    U+00E2 U+20AC U+00A2 that the source file holds there, and a space. *)
Definition li_prefix : str := [LF; 226; 8364; 162; 32]%N.

(** [for li in soup.find_all('li'): li.insert(0, li_prefix)]: every tag
    called [li], at any depth, gets the string as its new first child.
    [find_all] collects the tags before the first insertion, and the
    inserted objects are strings, so the loop reaches exactly the [li]
    tags of the parsed tree. *)
Fixpoint insert_li_prefix (e : PageElement) : PageElement :=
  match e with
  | Tag n cs =>
      Tag n ((if PyStr.eqb n (py "li") then [NavigableString li_prefix] else [])
             ++ map insert_li_prefix cs)
  | _ => e
  end.

(** The HTML cleaning of [get_medlineplus_definition]. *)
Definition clean_html (raw_html_content : str) : str :=
  let soup := BeautifulSoup raw_html_content in
  let soup := map insert_li_prefix soup in
  get_text (py " ") soup.

Definition base_url : str := py "https://wsearch.nlm.nih.gov/ws/query".

Definition params (term : str) : list (str * str) :=
  [(py "db", py "healthTopics"); (py "term", term); (py "rettype", py "brief")].

Definition medlineplus_header : str :=
  py "Source: MedlinePlus (U.S. National Library of Medicine)" ++ [LF; LF].

Definition medlineplus_unavailable : str :=
  py "MedlinePlus service is currently unavailable. Please check your internet connection.".

Definition medlineplus_parse_failure : str :=
  py "Failed to parse the response from MedlinePlus.".

Definition medlineplus_unexpected (e : exn) : str :=
  py "An unexpected error occurred with the MedlinePlus service: " ++ exn_str e.

Definition get_medlineplus_definition (w : World) (term : str) : Eff (option str) :=
  try_except
    (log (HttpGet base_url (params term) 10) ;;;
     response <- lift (requests_get w base_url (params term) 10) ;;
     raise_for_status response ;;;
     root <- lift (ET_fromstring w (content response)) ;;
     let snippet_element := find (py "content") (py "name") (py "FullSummary") root in
     match snippet_element with
     | Some el =>
         match text el with
         | Some t =>
             if truthy t then
               let raw_html_content := strip t in
               let clean_text := clean_html raw_html_content in
               ret (Some (medlineplus_header ++ clean_text))
             else ret None
         | None => ret None
         end
     | None => ret None
     end)
    (fun e =>
       match e with
       | RequestException _ => ret (Some medlineplus_unavailable)
       | ParseError _ => ret (Some medlineplus_parse_failure)
       | _ => ret (Some (medlineplus_unexpected e))
       end).

Definition wikipedia_header : str := py "Source: Wikipedia" ++ [LF; LF].

Definition wikipedia_not_found (term : str) : str :=
  py "Sorry, the term '" ++ term
  ++ py "' could not be found in MedlinePlus or Wikipedia.".

Definition wikipedia_ambiguous (term : str) (options : list str) : str :=
  py "The term '" ++ term ++ py "' is ambiguous on Wikipedia. "
  ++ py "Please be more specific. Some options might be: "
  ++ join (py ", ") (firstn 4 options) ++ py "...".

Definition wikipedia_failure (e : exn) : str :=
  py "An error occurred while fetching from Wikipedia: " ++ exn_str e.

Definition get_wikipedia_definition (w : World) (term : str) : Eff str :=
  try_except
    (log (WikiSummary term 4 false) ;;;
     summary <- lift (wikipedia_summary w term 4 false) ;;
     ret (wikipedia_header ++ summary))
    (fun e =>
       match e with
       | PageError _ => ret (wikipedia_not_found term)
       | DisambiguationError options _ => ret (wikipedia_ambiguous term options)
       | _ => ret (wikipedia_failure e)
       end).

(* ===================================================================== *)
(** ** The application: [MedicalDictApp] *)
(* ===================================================================== *)

(** Tk widgets: a text box in state [disabled] ignores [delete] and
    [insert]. *)
Definition configure (s : widget_state) (x : Widget) : Widget :=
  {| state := s; contents := contents x |}.

Definition delete_all (x : Widget) : Widget :=
  match state x with
  | normal => {| state := normal; contents := [] |}
  | disabled => x
  end.

Definition insert_at_start (s : str) (x : Widget) : Widget :=
  match state x with
  | normal => {| state := normal; contents := s ++ contents x |}
  | disabled => x
  end.

Definition on_result_textbox (f : Widget -> Widget) (g : Gui) : Gui :=
  {| search_entry := search_entry g; search_button := search_button g;
     result_textbox := f (result_textbox g) |}.

Definition on_search_button (f : Widget -> Widget) (g : Gui) : Gui :=
  {| search_entry := search_entry g; search_button := f (search_button g);
     result_textbox := result_textbox g |}.

Definition on_search_entry (f : Widget -> Widget) (g : Gui) : Gui :=
  {| search_entry := f (search_entry g); search_button := search_button g;
     result_textbox := result_textbox g |}.

(** The four statements that replace the text of the result box:
    [configure(state="normal")], [delete("1.0", "end")],
    [insert("1.0", s)], [configure(state="disabled")]. *)
Definition show_in_result_textbox (s : str) : Eff unit :=
  modify_gui (on_result_textbox (configure normal)) ;;;
  modify_gui (on_result_textbox delete_all) ;;;
  modify_gui (on_result_textbox (insert_at_start s)) ;;;
  modify_gui (on_result_textbox (configure disabled)).

(** [threading.Thread(target=self.perform_search, args=(term,)).start()] *)
Definition start_worker (term : str) : Eff unit :=
  fun st =>
    (inr tt, {| gui := gui st; calls := calls st;
                workers := workers st ++ [term]; after_queue := after_queue st |}).

(** [self.after(0, self.update_gui_with_result, definition)] *)
Definition after (definition : str) : Eff unit :=
  fun st =>
    (inr tt, {| gui := gui st; calls := calls st;
                workers := workers st; after_queue := after_queue st ++ [definition] |}).

Definition please_enter : str := py "Please enter a term to search.".

Definition searching_for (term : str) : str :=
  py "Searching for '" ++ term ++ py "'...".

Definition search_event : Eff unit :=
  fun st =>
    let term := contents (search_entry (gui st)) in
    (if negb (truthy term) then
       show_in_result_textbox please_enter
     else
       modify_gui (on_search_button
                     (fun _ => {| state := disabled; contents := py "Searching..." |})) ;;;
       modify_gui (on_search_entry (configure disabled)) ;;;
       show_in_result_textbox (searching_for term) ;;;
       start_worker term) st.

Definition perform_search (w : World) (term : str) : Eff unit :=
  definition <- get_medlineplus_definition w term ;;
  definition <- match definition with
                | None => get_wikipedia_definition w term
                | Some d => ret d
                end ;;
  after definition.

Definition update_gui_with_result (definition : str) : Eff unit :=
  show_in_result_textbox definition ;;;
  modify_gui (on_search_button
                (fun _ => {| state := normal; contents := py "Search" |})) ;;;
  modify_gui (on_search_entry (configure normal)).

(** One search request run to its end: the handler, then the worker
    threads it started, then the callbacks they queued. *)
Fixpoint for_each {A} (l : list A) (f : A -> Eff unit) : Eff unit :=
  match l with
  | [] => ret tt
  | a :: l' => f a ;;; for_each l' f
  end.

Definition run_workers (w : World) : Eff unit :=
  fun st =>
    for_each (workers st) (perform_search w)
      {| gui := gui st; calls := calls st; workers := [];
         after_queue := after_queue st |}.

Definition run_callbacks : Eff unit :=
  fun st =>
    for_each (after_queue st) update_gui_with_result
      {| gui := gui st; calls := calls st; workers := workers st;
         after_queue := [] |}.

Definition search_request (w : World) : Eff unit :=
  search_event ;;; run_workers w ;;; run_callbacks.

(** A window in which the user has typed [raw_input]. *)
Definition window (raw_input : str) : State :=
  {| gui := {| search_entry := {| state := normal; contents := raw_input |};
               search_button := {| state := normal; contents := py "Search" |};
               result_textbox := {| state := disabled; contents := [] |} |};
     calls := []; workers := []; after_queue := [] |}.

(* ===================================================================== *)
(** ** Worlds used in the examples *)
(* ===================================================================== *)

(** A world that gives the same answer whatever it is asked. *)
Definition constant_world (http : exn + Response) (xml : exn + Element)
  (wiki : exn + str) : World :=
  {| requests_get := fun _ _ _ => http;
     ET_fromstring := fun _ => xml;
     wikipedia_summary := fun _ _ _ => wiki |}.

Definition response (status : Z) (phrase : string) (body : string) : Response :=
  {| status_code := status; reason := py phrase; url := base_url;
     content := list_byte_of_string body |}.

(** A search result with one health topic whose full summary is [html]. *)
Definition topic_document (html : str) : Element :=
  mkElement (py "nlmSearchResult") [] None
    [ mkElement (py "term") [] (Some (py "diabetes")) [];
      mkElement (py "list") [(py "num", py "1")] None
        [ mkElement (py "document") [(py "rank", py "0")] None
            [ mkElement (py "content") [(py "name", py "title")]
                (Some (py "Diabetes")) [];
              mkElement (py "content") [(py "name", py "FullSummary")]
                (Some html) [] ] ] ].

(** A search result without any topic. *)
Definition empty_document : Element :=
  mkElement (py "nlmSearchResult") [] None
    [ mkElement (py "term") [] (Some (py "xyzzy123")) [];
      mkElement (py "count") [] (Some (py "0")) [] ].

Definition diabetes_world : World :=
  constant_world
    (inr (response 200 "OK"
            "<nlmSearchResult><list num='1'><document rank='0'><content name='FullSummary'>&lt;p&gt;High blood sugar&lt;/p&gt;</content></document></list></nlmSearchResult>"))
    (inr (topic_document (py "<p>High blood sugar</p>")))
    (inr (py "Diabetes mellitus is a group of metabolic disorders.")).

(** No topic at MedlinePlus, no page at Wikipedia. *)
Definition unknown_term_world : World :=
  constant_world
    (inr (response 200 "OK" "<nlmSearchResult><count>0</count></nlmSearchResult>"))
    (inr empty_document)
    (inl (PageError (py "Page id 'xyzzy123' does not match any pages. Try another id!"))).

(** No topic at MedlinePlus, several pages at Wikipedia. *)
Definition ambiguous_world : World :=
  constant_world
    (inr (response 200 "OK" "<nlmSearchResult><count>0</count></nlmSearchResult>"))
    (inr empty_document)
    (inl (DisambiguationError
            (map py ["Mercury (planet)"; "Mercury (element)"; "Mercury (mythology)";
                     "Mercury Records"; "Freddie Mercury"; "Mercury, Nevada"]%string)
            (py "'Mercury' may refer to several pages."))).

(** No topic at MedlinePlus, one page at Wikipedia. *)
Definition wikipedia_world : World :=
  constant_world
    (inr (response 200 "OK" "<nlmSearchResult><count>0</count></nlmSearchResult>"))
    (inr empty_document)
    (inr (py "A quark is a type of elementary particle.")).

(** The network is down. *)
Definition offline_world : World :=
  constant_world
    (inl (RequestException (py "Connection refused")))
    (inl (ParseError (py "no element found: line 1, column 0")))
    (inl (RequestException (py "Connection refused"))).

(** The service answers 304 Not Modified with an empty body. *)
Definition not_modified_world : World :=
  constant_world
    (inr (response 304 "Not Modified" ""))
    (inl (ParseError (py "no element found: line 1, column 0")))
    (inr (py "A quark is a type of elementary particle.")).

(* ===================================================================== *)
(** ** Vocabulary of the statements *)
(* ===================================================================== *)

(** The state after one more network call. *)
Definition logged (c : call) (st : State) : State := snd (log c st).

(** The one call of the primary client and the one call of the fallback
    client, with the arguments the source passes. *)
Definition primary_call (term : str) : call := HttpGet base_url (params term) 10.

Definition fallback_call (term : str) : call := WikiSummary term 4 false.

(** An HTTP status for which [raise_for_status] raises. *)
Definition error_status (s : Z) : Prop := (400 <= s < 600)%Z.

(** What the body of the primary client's [try] answers once the request
    went through with a status that is not an error and the body was
    parsed. *)
Definition summary_of (root : Element) : option str :=
  match find (py "content") (py "name") (py "FullSummary") root with
  | Some el =>
      match text el with
      | Some t => if truthy t then Some (medlineplus_header ++ clean_html (strip t))
                  else None
      | None => None
      end
  | None => None
  end.

(** What the fallback client returns, by the answer of the library. *)
Definition wikipedia_text (term : str) (answer : exn + str) : str :=
  match answer with
  | inr summary => wikipedia_header ++ summary
  | inl (PageError _) => wikipedia_not_found term
  | inl (DisambiguationError options _) => wikipedia_ambiguous term options
  | inl e => wikipedia_failure e
  end.

(** The window while the worker for [term] has been started and has not
    run yet. *)
Definition searching (term : str) : State :=
  {| gui := {| search_entry := {| state := disabled; contents := term |};
               search_button := {| state := disabled; contents := py "Searching..." |};
               result_textbox := {| state := disabled; contents := searching_for term |} |};
     calls := []; workers := [term]; after_queue := [] |}.

(** The window once the request for [term] is over: the result box shows
    [shown], the controls are enabled again, and [cs] are the network
    calls that were made. *)
Definition finished (term shown : str) (cs : list call) : State :=
  {| gui := {| search_entry := {| state := normal; contents := term |};
               search_button := {| state := normal; contents := py "Search" |};
               result_textbox := {| state := disabled; contents := shown |} |};
     calls := cs; workers := []; after_queue := [] |}.

(** The window after a request with an empty entry: only the result box
    has changed. *)
Definition rejected : State :=
  {| gui := {| search_entry := {| state := normal; contents := [] |};
               search_button := {| state := normal; contents := py "Search" |};
               result_textbox := {| state := disabled; contents := please_enter |} |};
     calls := []; workers := []; after_queue := [] |}.


(** The bullet character U+2022. *)
Definition BULLET : N := 8226.

(* ===================================================================== *)
(** ** Vocabulary of the further properties *)
(* ===================================================================== *)

(** The text the user reads in the result box. *)
Definition displayed (st : State) : str := contents (result_textbox (gui st)).

(** [s.startswith(prefix)] *)
Fixpoint startswith (prefix s : str) : bool :=
  match prefix, s with
  | [], _ => true
  | p :: prefix', c :: s' => (p =? c)%N && startswith prefix' s'
  | _ :: _, [] => false
  end.

(** The strings [get_text] joins: those of the tree, stripped, the empty
    ones dropped. *)
Definition text_pieces (soup : Soup) : list str :=
  filter truthy (map strip (flat_map _all_strings soup)).

(** A string that is empty or starts with a character that is not white
    space; a string with such a start and such an end. *)
Definition head_ok (s : str) : Prop :=
  match s with [] => True | c :: _ => isspace c = false end.

Definition trimmed (s : str) : Prop := head_ok s /\ head_ok (rev s).

(** The strings of a tree other than the marker of the list items. *)
Definition without_markers (l : list str) : list str :=
  filter (fun s => negb (PyStr.eqb s li_prefix)) l.

(** A state with no worker waiting to run and no callback queued. *)
Definition idle (st : State) : Prop := workers st = [] /\ after_queue st = [].

Definition with_gui (g : Gui) (st : State) : State :=
  {| gui := g; calls := calls st; workers := workers st;
     after_queue := after_queue st |}.

(** The widgets with [s] alone in the read-only result box. *)
Definition showing (s : str) (g : Gui) : Gui :=
  {| search_entry := search_entry g; search_button := search_button g;
     result_textbox := {| state := disabled; contents := s |} |}.

(** The widgets while a search for [term] is under way. *)
Definition busy (term : str) : Gui :=
  {| search_entry := {| state := disabled; contents := term |};
     search_button := {| state := disabled; contents := py "Searching..." |};
     result_textbox := {| state := disabled; contents := searching_for term |} |}.

(** The widgets once a search is over. *)
Definition ready (term shown : str) : Gui :=
  {| search_entry := {| state := normal; contents := term |};
     search_button := {| state := normal; contents := py "Search" |};
     result_textbox := {| state := disabled; contents := shown |} |}.

(** A topic whose full summary is one space. *)
Definition blank_summary_world : World :=
  constant_world
    (inr (response 200 "OK"
            "<nlmSearchResult><list num='1'><document rank='0'><content name='FullSummary'> </content></document></list></nlmSearchResult>"))
    (inr (topic_document (py " ")))
    (inr (py "Diabetes mellitus is a group of metabolic disorders.")).

(** No topic at MedlinePlus, two candidate pages at Wikipedia. *)
Definition two_candidates_world : World :=
  constant_world
    (inr (response 200 "OK" "<nlmSearchResult><count>0</count></nlmSearchResult>"))
    (inr empty_document)
    (inl (DisambiguationError (map py ["Java (island)"; "Java (language)"]%string)
            (py "'Java' may refer to several pages."))).

(* ===================================================================== *)
(** ** The tokenizer consumes its input *)
(* ===================================================================== *)

Section Tokenizer.
Import HtmlParser.

Lemma break_at_length p s : (length (snd (break_at p s)) <= length s)%nat.
Proof.
  induction s as [| c s IH]; cbn; [lia |].
  destruct (p c); cbn; [lia |].
  destruct (break_at p s); cbn in *; lia.
Qed.


Lemma starts_with_length pat s r :
  starts_with pat s = Some r -> (length r <= length s)%nat.
Proof.
  revert s; induction pat as [| p pat IH]; intros [| c s]; cbn; intros H;
    try discriminate; try (injection H as <-; cbn; lia).
  destruct (p =? c)%N; [| discriminate]. apply IH in H. lia.
Qed.

Lemma find_sub_length pat s d r :
  find_sub pat s = Some (d, r) -> (length r <= length s)%nat.
Proof.
  revert d; induction s as [| c s IH]; intros d; cbn [find_sub].
  - destruct (starts_with pat []) eqn:E; [| discriminate].
    intros H; injection H as _ <-. apply (starts_with_length _ _ _ E).
  - destruct (starts_with pat (c :: s)) eqn:E.
    + intros H; injection H as _ <-. apply (starts_with_length _ _ _ E).
    + destruct (find_sub pat s) as [[d' r'] |]; [| discriminate].
      intros H; injection H as _ <-. specialize (IH d' eq_refl). cbn; lia.
Qed.

Lemma scan_tag_end_length s q a sl b r :
  scan_tag_end s q a sl = Some (b, r) -> (length r < length s)%nat.
Proof.
  revert q a sl; induction s as [| c s IH]; intros q a sl; cbn [scan_tag_end];
    [discriminate |].
  destruct q as [q |].
  - destruct (c =? q)%N; intros H; apply IH in H; cbn; lia.
  - destruct (c =? GT)%N; [intros H; injection H as _ <-; cbn; lia |].
    destruct (((c =? DQUOTE)%N || (c =? SQUOTE)%N) && a);
      [intros H; apply IH in H; cbn; lia |].
    destruct (c =? EQUALS)%N; [intros H; apply IH in H; cbn; lia |].
    destruct (re_space c); intros H; apply IH in H; cbn; lia.
Qed.

Lemma parse_markup_length rest tok r :
  parse_markup rest = Some (tok, r) -> (length r <= length rest)%nat.
Proof.
  unfold parse_markup.
  destruct (starts_with (py "!--") rest) as [body |] eqn:E.
  - destruct (find_sub (py "-->") body) as [[c r'] |] eqn:F; [| discriminate].
    intros H; injection H as _ <-.
    apply starts_with_length in E. apply find_sub_length in F. lia.
  - destruct rest as [| c rest']; [discriminate |].
    destruct (is_ascii_letter c).
    + pose proof (break_at_length name_end (c :: rest')) as L.
      destruct (break_at name_end (c :: rest')) as [name r0]; cbn [snd] in L.
      destruct (scan_tag_end r0 None false false) as [[[|] r'] |] eqn:S;
        [| | discriminate]; intros H; injection H as _ <-;
        apply scan_tag_end_length in S; lia.
    + destruct (c =? SLASH)%N; [| discriminate].
      destruct rest' as [| c' rest'']; [discriminate |].
      destruct (is_ascii_letter c'); [| discriminate].
      pose proof (break_at_length name_end (c' :: rest'')) as L.
      destruct (break_at name_end (c' :: rest'')) as [name r0]; cbn [snd] in L.
      pose proof (break_at_length (N.eqb GT) r0) as L'.
      destruct (break_at (N.eqb GT) r0) as [x [| g r']]; [discriminate |].
      intros H; injection H as _ <-. cbn [snd length] in *. lia.
Qed.

(** Any fuel of at least the length of the input gives the same tokens:
    [feed] never stops for lack of fuel. *)
Lemma goahead_fuel n : forall m s,
  (length s <= n)%nat -> (length s <= m)%nat -> goahead n s = goahead m s.
Proof.
  induction n as [| n IH]; intros m s Hn Hm.
  - destruct s; [| cbn in Hn; lia]. destruct m; reflexivity.
  - destruct s as [| c rest]; [destruct m; reflexivity |].
    destruct m as [| m]; [cbn in Hm; lia |].
    cbn [length] in Hn, Hm. cbn [goahead].
    destruct (c =? LT)%N eqn:E1.
    + destruct (parse_markup rest) as [[tok r] |] eqn:P.
      * apply parse_markup_length in P. f_equal. apply IH; lia.
      * f_equal. apply IH; lia.
    + destruct (c =? AMP)%N eqn:E2; [f_equal; apply IH; lia |].
      cbn [break_at]. unfold interesting at 1 3. rewrite E1, E2. cbn [orb].
      pose proof (break_at_length interesting rest) as L.
      destruct (break_at interesting rest) as [d r]. cbn [snd] in L.
      f_equal. apply IH; lia.
Qed.

Lemma feed_fuel n s : (length s <= n)%nat -> goahead n s = feed s.
Proof. intros H. apply goahead_fuel; [exact H | lia]. Qed.



End Tokenizer.

(* ===================================================================== *)
(** ** Stripping and plain text *)
(* ===================================================================== *)





(** The loop over [find_all('li')] touches the [li] tags and nothing
    else: one string per [li] tag is added, and a tree without [li] tags
    is left as it is. *)
Lemma insert_li_prefix_li cs :
  insert_li_prefix (Tag (py "li") cs)
  = Tag (py "li") (NavigableString li_prefix :: map insert_li_prefix cs).
Proof. reflexivity. Qed.

Lemma insert_li_prefix_other n cs :
  PyStr.eqb n (py "li") = false ->
  insert_li_prefix (Tag n cs) = Tag n (map insert_li_prefix cs).
Proof. intros H. cbn [insert_li_prefix]. rewrite H. reflexivity. Qed.

(** The two fragments of the examples, parsed and prefixed. *)
Example BeautifulSoup_list :
  BeautifulSoup (py "<ul><li>A</li><li>B</li></ul>")
  = [Tag (py "ul") [Tag (py "li") [NavigableString (py "A")];
                    Tag (py "li") [NavigableString (py "B")]]].
Proof. vm_compute. reflexivity. Qed.

Example insert_li_prefix_list :
  map insert_li_prefix (BeautifulSoup (py "<ul><li>A</li><li>B</li></ul>"))
  = [Tag (py "ul")
       [Tag (py "li") [NavigableString li_prefix; NavigableString (py "A")];
        Tag (py "li") [NavigableString li_prefix; NavigableString (py "B")]]].
Proof. vm_compute. reflexivity. Qed.

Example BeautifulSoup_paragraph :
  BeautifulSoup (py "<p>High blood sugar</p>")
  = [Tag (py "p") [NavigableString (py "High blood sugar")]].
Proof. vm_compute. reflexivity. Qed.

(** Induction on a parsed tree, with the hypothesis for every child. *)
Lemma PageElement_induction (P : PageElement -> Prop) :
  (forall s, P (NavigableString s)) ->
  (forall s, P (Comment s)) ->
  (forall n cs, Forall P cs -> P (Tag n cs)) ->
  forall e, P e.
Proof.
  intros HS HC HT. fix F 1. intros [s | s | n cs]; [apply HS | apply HC |].
  apply HT. induction cs as [| c cs IH]; constructor; [apply F | exact IH].
Qed.

(** The loop adds one string for each tag that [find_all('li')] returns:
    the strings of the tree grow by the number of [li] tags. *)
Lemma insert_li_prefix_count e :
  length (_all_strings (insert_li_prefix e))
  = (length (_all_strings e) + length (find_all_in (py "li") e))%nat.
Proof.
  induction e as [s | s | n cs IH] using PageElement_induction;
    [reflexivity | reflexivity |].
  assert (H : length (flat_map _all_strings (map insert_li_prefix cs))
              = (length (flat_map _all_strings cs)
                 + length (flat_map (find_all_in (py "li")) cs))%nat).
  { induction IH as [| c cs Hc _ IHcs]; [reflexivity |].
    cbn [map flat_map]. rewrite !length_app, Hc, IHcs. lia. }
  cbn [insert_li_prefix _all_strings find_all_in].
  rewrite flat_map_app, !length_app, H.
  destruct (PyStr.eqb n (py "li")); cbn [flat_map _all_strings app length]; lia.
Qed.

(* ===================================================================== *)
(** ** How the clients and the worker run *)
(* ===================================================================== *)

Ltac gui_steps :=
  cbv beta iota zeta delta
    [show_in_result_textbox modify_gui start_worker after bind ret log logged
     on_result_textbox on_search_button on_search_entry
     configure delete_all insert_at_start
     run_workers run_callbacks update_gui_with_result for_each
     gui calls workers after_queue search_entry search_button result_textbox
     state contents fst snd truthy negb].

Lemma raise_for_status_ok r st :
  ~ error_status (status_code r) -> raise_for_status r st = (inr tt, st).
Proof.
  unfold error_status, raise_for_status. intros H.
  destruct (Z.leb_spec 400 (status_code r)), (Z.ltb_spec (status_code r) 500),
           (Z.leb_spec 500 (status_code r)), (Z.ltb_spec (status_code r) 600);
    cbn; try reflexivity; lia.
Qed.

Lemma raise_for_status_error r st :
  error_status (status_code r) ->
  exists d, raise_for_status r st = (inl (RequestException d), st).
Proof.
  unfold error_status, raise_for_status. intros H.
  destruct (Z.leb_spec 400 (status_code r)), (Z.ltb_spec (status_code r) 500),
           (Z.leb_spec 500 (status_code r)), (Z.ltb_spec (status_code r) 600);
    cbn; try (eexists; reflexivity); lia.
Qed.

Lemma error_status_dec s : {error_status s} + {~ error_status s}.
Proof.
  unfold error_status.
  destruct (Z_le_dec 400 s), (Z_lt_dec s 600); (left; lia) || (right; lia).
Qed.

(** The answer of the primary client, by the answers of the libraries. *)
Lemma get_medlineplus_definition_run w term st :
  get_medlineplus_definition w term st =
  (inr match requests_get w base_url (params term) 10 with
       | inl (RequestException _) => Some medlineplus_unavailable
       | inl (ParseError _) => Some medlineplus_parse_failure
       | inl e => Some (medlineplus_unexpected e)
       | inr resp =>
           if error_status_dec (status_code resp) then Some medlineplus_unavailable
           else match ET_fromstring w (content resp) with
                | inl (RequestException _) => Some medlineplus_unavailable
                | inl (ParseError _) => Some medlineplus_parse_failure
                | inl e => Some (medlineplus_unexpected e)
                | inr root => summary_of root
                end
       end,
   logged (primary_call term) st).
Proof.
  unfold get_medlineplus_definition, try_except, bind, lift, logged, primary_call.
  cbn [log snd].
  destruct (requests_get w base_url (params term) 10) as [e | resp].
  - destruct e; reflexivity.
  - destruct (error_status_dec (status_code resp)) as [E | E].
    + destruct (raise_for_status_error resp
                  (snd (log (HttpGet base_url (params term) 10) st)) E) as [d H].
      cbn [log snd] in H. rewrite H. reflexivity.
    + pose proof (raise_for_status_ok resp
                    (snd (log (HttpGet base_url (params term) 10) st)) E) as H.
      cbn [log snd] in H. rewrite H.
      destruct (ET_fromstring w (content resp)) as [e | root].
      * destruct e; reflexivity.
      * unfold summary_of.
        destruct (find _ _ _ root) as [el |]; [| reflexivity].
        destruct (text el) as [t |]; [| reflexivity].
        destruct (truthy t); reflexivity.
Qed.

(** The value the primary client returns does not depend on the state. *)
Lemma get_medlineplus_definition_frame w term st st0 :
  fst (get_medlineplus_definition w term st) = fst (get_medlineplus_definition w term st0).
Proof. rewrite !get_medlineplus_definition_run. reflexivity. Qed.

Lemma get_wikipedia_definition_run w term st :
  get_wikipedia_definition w term st
  = (inr (wikipedia_text term (wikipedia_summary w term 4 false)),
     logged (fallback_call term) st).
Proof.
  unfold get_wikipedia_definition, try_except, bind, lift, logged, fallback_call.
  cbn [log snd].
  destruct (wikipedia_summary w term 4 false) as [e | summary];
    [destruct e |]; reflexivity.
Qed.

(** The worker, once the answer of the primary client is known. *)
Lemma perform_search_run w term st st0 primary :
  fst (get_medlineplus_definition w term st0) = inr primary ->
  perform_search w term st =
  match primary with
  | Some d => after d (logged (primary_call term) st)
  | None =>
      after (wikipedia_text term (wikipedia_summary w term 4 false))
            (logged (fallback_call term) (logged (primary_call term) st))
  end.
Proof.
  intros H. rewrite (get_medlineplus_definition_frame w term st0 st) in H.
  unfold perform_search, bind.
  rewrite get_medlineplus_definition_run in *. cbn [fst] in H.
  injection H as ->.
  destruct primary as [d |]; [reflexivity |].
  rewrite get_wikipedia_definition_run. reflexivity.
Qed.

Lemma search_event_empty :
  search_event (window []) = (inr tt, rejected).
Proof.
  unfold search_event, window, rejected. gui_steps. rewrite app_nil_r. reflexivity.
Qed.

Lemma search_event_nonempty c term :
  search_event (window (c :: term)) = (inr tt, searching (c :: term)).
Proof.
  unfold search_event, window, searching. gui_steps.
  rewrite app_nil_r. reflexivity.
Qed.

(** A whole request for a non-empty input. *)
Lemma search_request_run w c term' primary st0 :
  let term := c :: term' in
  fst (get_medlineplus_definition w term st0) = inr primary ->
  search_request w (window term) =
  (inr tt,
   match primary with
   | Some d => finished term d [primary_call term]
   | None => finished term (wikipedia_text term (wikipedia_summary w term 4 false))
               [primary_call term; fallback_call term]
   end).
Proof.
  intros term H.
  unfold search_request, bind. subst term. rewrite search_event_nonempty.
  unfold run_workers. cbn [workers searching for_each bind].
  unfold bind.
  rewrite (perform_search_run w _ _ st0 primary H).
  destruct primary as [d0 |]; unfold finished, searching;
    cbv beta iota zeta delta
      [after log logged run_callbacks snd fst calls after_queue workers gui];
    cbn [app]; gui_steps; rewrite app_nil_r; reflexivity.
Qed.

(* ===================================================================== *)
(** ** The claims *)
(* ===================================================================== *)

(** C1. [perform_search] calls the primary client first.  When the primary
    client returns a text, be it a definition or an error message, that
    text is the result and the only network call is the primary one; the
    fallback client is called exactly when the primary client returns
    [None], after the primary call, and its text is the result.  [None]
    is returned only when the request went through without an error status
    and the body was parsed, so a failure of the primary service is never
    replaced by a fallback lookup. *)
Theorem perform_search_primary_first (w : World) (term : str) (st : State) :
  let st1 := logged (primary_call term) st in
  exists primary,
    get_medlineplus_definition w term st = (inr primary, st1) /\
    match primary with
    | Some d =>
        perform_search w term st = after d st1 /\
        calls (snd (perform_search w term st)) = calls st ++ [primary_call term]
    | None =>
        (exists fallback,
           get_wikipedia_definition w term st1
             = (inr fallback, logged (fallback_call term) st1) /\
           perform_search w term st = after fallback (logged (fallback_call term) st1)) /\
        calls (snd (perform_search w term st))
          = calls st ++ [primary_call term; fallback_call term] /\
        (exists resp root,
           requests_get w base_url (params term) 10 = inr resp /\
           ~ error_status (status_code resp) /\
           ET_fromstring w (content resp) = inr root)
    end.
Proof.
  intros st1. subst st1.
  destruct (get_medlineplus_definition w term st) as [r st'] eqn:E.
  pose proof E as E'. rewrite get_medlineplus_definition_run in E'.
  injection E' as Hr Hst. subst st'.
  destruct r as [e | primary]; [discriminate |].
  exists primary. split; [reflexivity |].
  assert (Hp : fst (get_medlineplus_definition w term st) = inr primary)
    by (rewrite E; reflexivity).
  rewrite (perform_search_run w term st st primary Hp).
  destruct primary as [d |].
  - split; [reflexivity |]. unfold after, logged, log. cbn [snd calls]. reflexivity.
  - split; [| split].
    + eexists. split; [apply get_wikipedia_definition_run | reflexivity].
    + unfold after, logged, log. cbn [snd calls]. rewrite <- app_assoc. reflexivity.
    + injection Hr as Hr.
      destruct (requests_get w base_url (params term) 10) as [e | resp] eqn:G;
        [destruct e; discriminate |].
      destruct (error_status_dec (status_code resp)) as [S | S]; [discriminate |].
      destruct (ET_fromstring w (content resp)) as [e | root] eqn:X;
        [destruct e; discriminate |].
      exists resp, root. split; [reflexivity | split; [exact S | exact X]].
Qed.

(** C2, as the code has it.  Only the empty entry is rejected: the result
    box then asks for a term, and no worker is started and no network call
    is made.  Any other entry, white space included, is searched as typed:
    the worker gets the entry unchanged and the first network call carries
    it unchanged as its [term] parameter. *)
Theorem search_event_rejects_only_the_empty_entry (w : World) (raw_input : str) :
  match raw_input with
  | [] => search_request w (window raw_input) = (inr tt, rejected)
  | _ :: _ =>
      search_event (window raw_input) = (inr tt, searching raw_input) /\
      exists shown more,
        search_request w (window raw_input)
        = (inr tt,
           finished raw_input shown
             (HttpGet base_url
                [(py "db", py "healthTopics"); (py "term", raw_input);
                 (py "rettype", py "brief")] 10 :: more))
  end.
Proof.
  destruct raw_input as [| c term'].
  - unfold search_request, bind. rewrite search_event_empty. reflexivity.
  - split; [apply search_event_nonempty |].
    destruct (get_medlineplus_definition w (c :: term') (window [])) as [r st'] eqn:E.
    pose proof E as E'. rewrite get_medlineplus_definition_run in E'.
    injection E' as Hr _. destruct r as [e | primary]; [discriminate |].
    assert (Hp : fst (get_medlineplus_definition w (c :: term') (window [])) = inr primary)
      by (rewrite E; reflexivity).
    rewrite (search_request_run w c term' primary (window []) Hp).
    destruct primary as [d |]; eexists; eexists; reflexivity.
Qed.

(** C2 fails as stated: an entry of one space is white space only, and it
    is searched, with the space as the term of the network call; the entry
    [" flu "] reaches the service with its spaces. *)
Lemma whitespace_entry_is_searched :
  strip (py " ") = [] /\
  search_request offline_world (window (py " "))
  = (inr tt, finished (py " ") medlineplus_unavailable
               [HttpGet base_url
                  [(py "db", py "healthTopics"); (py "term", py " ");
                   (py "rettype", py "brief")] 10]) /\
  strip (py " flu ") = py "flu" /\
  calls (snd (search_request offline_world (window (py " flu "))))
  = [HttpGet base_url
       [(py "db", py "healthTopics"); (py "term", py " flu ");
        (py "rettype", py "brief")] 10].
Proof. repeat split; vm_compute; reflexivity. Qed.

(** C3, as the code has it.  The primary client never raises: it returns
    [None], a definition under the MedlinePlus header, or one of its three
    error messages.  A [RequestException] of [requests.get] (connection
    error, timeout) and a response with a status from 400 to 599 give the
    "currently unavailable" message; a body that [ET.fromstring] rejects
    gives the parse-failure message; any other exception of either call
    gives the "unexpected error" message followed by its description. *)
Theorem get_medlineplus_definition_never_raises (w : World) (term : str) (st : State) :
  exists r,
    get_medlineplus_definition w term st = (inr r, logged (primary_call term) st) /\
    (r = None \/
     (exists clean_text, r = Some (medlineplus_header ++ clean_text)) \/
     r = Some medlineplus_unavailable \/
     r = Some medlineplus_parse_failure \/
     (exists e, r = Some (medlineplus_unexpected e))) /\
    (forall d, requests_get w base_url (params term) 10 = inl (RequestException d) ->
               r = Some medlineplus_unavailable) /\
    (forall resp, requests_get w base_url (params term) 10 = inr resp ->
                  error_status (status_code resp) ->
                  r = Some medlineplus_unavailable) /\
    (forall resp d, requests_get w base_url (params term) 10 = inr resp ->
                    ~ error_status (status_code resp) ->
                    ET_fromstring w (content resp) = inl (ParseError d) ->
                    r = Some medlineplus_parse_failure) /\
    (forall d, requests_get w base_url (params term) 10 = inl (OtherException d) ->
               r = Some (py "An unexpected error occurred with the MedlinePlus service: " ++ d)) /\
    (forall resp d, requests_get w base_url (params term) 10 = inr resp ->
                    ~ error_status (status_code resp) ->
                    ET_fromstring w (content resp) = inl (OtherException d) ->
                    r = Some (py "An unexpected error occurred with the MedlinePlus service: " ++ d)).
Proof.
  eexists. split; [apply get_medlineplus_definition_run |].
  split; [| repeat split].
  - destruct (requests_get w base_url (params term) 10) as [e | resp].
    { destruct e; eauto 8. }
    destruct (error_status_dec (status_code resp)); [eauto 8 |].
    destruct (ET_fromstring w (content resp)) as [e | root].
    { destruct e; eauto 8. }
    unfold summary_of.
    destruct (find _ _ _ root) as [el |]; [| eauto].
    destruct (text el) as [t |]; [| eauto].
    destruct (truthy t); eauto 8.
  - intros d H. rewrite H. reflexivity.
  - intros resp H S. rewrite H.
    destruct (error_status_dec (status_code resp)); [reflexivity | contradiction].
  - intros resp d H S X. rewrite H, X.
    destruct (error_status_dec (status_code resp)); [contradiction | reflexivity].
  - intros d H. rewrite H. reflexivity.
  - intros resp d H S X. rewrite H, X.
    destruct (error_status_dec (status_code resp)); [contradiction | reflexivity].
Qed.

(** C3 fails as stated for a status outside 200 to 299 that is not an
    error status: a 304 response with an empty body is reported as a
    parse failure, not as an unavailable service. *)
Lemma not_modified_is_a_parse_failure :
  requests_get not_modified_world base_url (params (py "diabetes")) 10
    = inr (response 304 "Not Modified" "") /\
  ~ (200 <= 304 < 300)%Z /\
  get_medlineplus_definition not_modified_world (py "diabetes") (window (py "diabetes"))
    = (inr (Some (py "Failed to parse the response from MedlinePlus.")),
       logged (primary_call (py "diabetes")) (window (py "diabetes"))) /\
  py "Failed to parse the response from MedlinePlus." <> medlineplus_unavailable.
Proof.
  split; [reflexivity |]. split; [lia |]. split; [vm_compute; reflexivity |].
  intros H. vm_compute in H. discriminate H.
Qed.



(** C5, as the code has it.  When Wikipedia has no page for the term, the
    fallback client returns "Sorry, the term '<term>' could not be found
    in MedlinePlus or Wikipedia."; after a [None] of the primary client
    that message is the result of the search. *)
Theorem page_error_message
  (w : World) (term : str) (st : State) (descr : str) :
  wikipedia_summary w term 4 false = inl (PageError descr) ->
  get_wikipedia_definition w term st
  = (inr (py "Sorry, the term '" ++ term
          ++ py "' could not be found in MedlinePlus or Wikipedia."),
     logged (fallback_call term) st) /\
  (fst (get_medlineplus_definition w term st) = inr None ->
   perform_search w term st
   = after (py "Sorry, the term '" ++ term
            ++ py "' could not be found in MedlinePlus or Wikipedia.")
           (logged (fallback_call term) (logged (primary_call term) st))).
Proof.
  intros P. split.
  - rewrite get_wikipedia_definition_run, P. reflexivity.
  - intros H. rewrite (perform_search_run w term st st None H), P. reflexivity.
Qed.

Lemma page_error_message_witness :
  get_wikipedia_definition unknown_term_world (py "xyzzy123") (window (py "xyzzy123"))
  = (inr (py "Sorry, the term 'xyzzy123' could not be found in MedlinePlus or Wikipedia."),
     logged (fallback_call (py "xyzzy123")) (window (py "xyzzy123"))).
Proof.
  apply (page_error_message unknown_term_world (py "xyzzy123")
           (window (py "xyzzy123"))
           (py "Page id 'xyzzy123' does not match any pages. Try another id!")).
  reflexivity.
Defined.

(** C5 fails as stated: for "xyzzy123", with no topic at MedlinePlus and
    no page at Wikipedia, the text shown is not the one the claim quotes. *)
Lemma xyzzy123_message_names_both_sources :
  search_request unknown_term_world (window (py "xyzzy123"))
  = (inr tt,
     finished (py "xyzzy123")
       (py "Sorry, the term 'xyzzy123' could not be found in MedlinePlus or Wikipedia.")
       [primary_call (py "xyzzy123"); fallback_call (py "xyzzy123")]) /\
  py "Sorry, the term 'xyzzy123' could not be found in MedlinePlus or Wikipedia."
  <> py "'xyzzy123' could not be found in either source".
Proof.
  split; [vm_compute; reflexivity |].
  intros H. vm_compute in H. discriminate H.
Qed.

(** C6. When Wikipedia reports more than four candidate pages, the message
    lists the first four in their order, separated by a comma and a space
    and followed by three dots; the fifth and later candidates do not
    appear in it. *)
Theorem disambiguation_lists_first_four
  (w : World) (term : str) (st : State)
  (x1 x2 x3 x4 x5 : str) (more : list str) (descr : str) :
  wikipedia_summary w term 4 false
  = inl (DisambiguationError (x1 :: x2 :: x3 :: x4 :: x5 :: more) descr) ->
  get_wikipedia_definition w term st
  = (inr (py "The term '" ++ term ++ py "' is ambiguous on Wikipedia. "
          ++ py "Please be more specific. Some options might be: "
          ++ x1 ++ py ", " ++ x2 ++ py ", " ++ x3 ++ py ", " ++ x4 ++ py "..."),
     logged (fallback_call term) st).
Proof.
  intros D. rewrite get_wikipedia_definition_run, D.
  unfold wikipedia_text, wikipedia_ambiguous. cbn [firstn join].
  repeat rewrite <- app_assoc. reflexivity.
Qed.

Lemma disambiguation_lists_first_four_witness :
  get_wikipedia_definition ambiguous_world (py "Mercury") (window (py "Mercury"))
  = (inr (py "The term 'Mercury' is ambiguous on Wikipedia. Please be more specific. Some options might be: Mercury (planet), Mercury (element), Mercury (mythology), Mercury Records..."),
     logged (fallback_call (py "Mercury")) (window (py "Mercury"))).
Proof.
  apply (disambiguation_lists_first_four ambiguous_world (py "Mercury")
           (window (py "Mercury"))
           (py "Mercury (planet)") (py "Mercury (element)")
           (py "Mercury (mythology)") (py "Mercury Records")
           (py "Freddie Mercury") [py "Mercury, Nevada"]
           (py "'Mercury' may refer to several pages.")).
  reflexivity.
Defined.

(** C7 at the fragment of the claim.  The two items come out in their
    order, each behind one marker, but the marker is the three characters
    U+00E2 U+20AC U+00A2 of the source literal: the text holds no bullet
    character. *)
Theorem list_items_are_marked_with_the_source_literal :
  clean_html (py "<ul><li>A</li><li>B</li></ul>")
  = [226; 8364; 162; 32; 65; 32; 226; 8364; 162; 32; 66]%N /\
  ~ In BULLET (clean_html (py "<ul><li>A</li><li>B</li></ul>")) /\
  clean_html (py "<ul><li>A</li><li>B</li></ul>")
  <> [BULLET; 32; 65; 32; BULLET; 32; 66]%N.
Proof.
  split; [vm_compute; reflexivity |]. split.
  - vm_compute. intros H.
    repeat (destruct H as [H | H]; [discriminate H |]). exact H.
  - intros H. vm_compute in H. discriminate H.
Qed.

(** C8. For the term "diabetes", when the parsed response has a first
    full-summary element whose text is [<p>High blood sugar</p>], the
    search shows the MedlinePlus header, an empty line and
    "High blood sugar", after the primary call alone. *)
Theorem diabetes_end_to_end
  (w : World) (resp : Response) (root el : Element) :
  requests_get w base_url (params (py "diabetes")) 10 = inr resp ->
  ~ error_status (status_code resp) ->
  ET_fromstring w (content resp) = inr root ->
  find (py "content") (py "name") (py "FullSummary") root = Some el ->
  text el = Some (py "<p>High blood sugar</p>") ->
  search_request w (window (py "diabetes"))
  = (inr tt,
     finished (py "diabetes")
       (py "Source: MedlinePlus (U.S. National Library of Medicine)"
        ++ [LF; LF] ++ py "High blood sugar")
       [primary_call (py "diabetes")]).
Proof.
  intros G S X F T.
  assert (H : fst (get_medlineplus_definition w (py "diabetes") (window []))
              = inr (Some (medlineplus_header ++ py "High blood sugar"))).
  { rewrite get_medlineplus_definition_run, G, X.
    destruct (error_status_dec (status_code resp)); [contradiction |].
    unfold summary_of. rewrite F, T. reflexivity. }
  exact (search_request_run w _ _ _ (window []) H).
Qed.

Lemma diabetes_end_to_end_witness :
  search_request diabetes_world (window (py "diabetes"))
  = (inr tt,
     finished (py "diabetes")
       (py "Source: MedlinePlus (U.S. National Library of Medicine)"
        ++ [LF; LF] ++ py "High blood sugar")
       [primary_call (py "diabetes")]).
Proof.
  apply (diabetes_end_to_end diabetes_world
           (response 200 "OK"
              "<nlmSearchResult><list num='1'><document rank='0'><content name='FullSummary'>&lt;p&gt;High blood sugar&lt;/p&gt;</content></document></list></nlmSearchResult>")
           (topic_document (py "<p>High blood sugar</p>"))
           (mkElement (py "content") [(py "name", py "FullSummary")]
              (Some (py "<p>High blood sugar</p>")) [])).
  - reflexivity.
  - unfold error_status. cbn. lia.
  - reflexivity.
  - reflexivity.
  - reflexivity.
Defined.



(** C10. When [wikipedia.summary] succeeds, the text the fallback client
    returns is "Source: Wikipedia", an empty line and then the summary: it
    is never the summary alone. *)
Theorem wikipedia_text_starts_with_its_source
  (w : World) (term : str) (st : State) (summary : str) :
  wikipedia_summary w term 4 false = inr summary ->
  get_wikipedia_definition w term st
  = (inr (py "Source: Wikipedia" ++ [LF; LF] ++ summary),
     logged (fallback_call term) st) /\
  py "Source: Wikipedia" ++ [LF; LF] ++ summary <> summary.
Proof.
  intros H. split.
  - rewrite get_wikipedia_definition_run, H. unfold wikipedia_text, wikipedia_header.
    rewrite <- app_assoc. reflexivity.
  - intros E. apply (f_equal (@length N)) in E.
    rewrite !length_app in E. cbn in E. lia.
Qed.

Lemma wikipedia_text_starts_with_its_source_witness :
  get_wikipedia_definition wikipedia_world (py "quark") (window (py "quark"))
  = (inr (py "Source: Wikipedia" ++ [LF; LF]
          ++ py "A quark is a type of elementary particle."),
     logged (fallback_call (py "quark")) (window (py "quark"))).
Proof.
  apply (wikipedia_text_starts_with_its_source wikipedia_world (py "quark")
           (window (py "quark")) (py "A quark is a type of elementary particle.")).
  reflexivity.
Defined.

(* ===================================================================== *)
(** ** Further properties of the lookup pipeline *)
(* ===================================================================== *)

(** *** Stripped strings *)

Lemma lstrip_head_ok s : head_ok (lstrip s).
Proof.
  induction s as [| c s IH]; cbn; [exact I |].
  destruct (isspace c) eqn:E; [exact IH | exact E].
Qed.

Lemma lstrip_fixed s : head_ok s -> lstrip s = s.
Proof. destruct s as [| c s]; cbn; [reflexivity |]. intros ->. reflexivity. Qed.

Lemma lstrip_suffix s : exists a, s = a ++ lstrip s.
Proof.
  induction s as [| c s [a IH]]; [exists []; reflexivity |].
  cbn. destruct (isspace c).
  - exists (c :: a). cbn. f_equal. exact IH.
  - exists []. reflexivity.
Qed.

Lemma rstrip_prefix s : exists b, s = rstrip s ++ b.
Proof.
  unfold rstrip. destruct (lstrip_suffix (rev s)) as [a H].
  exists (rev a). rewrite <- rev_app_distr, <- H, rev_involutive. reflexivity.
Qed.

Lemma head_ok_prefix s b : head_ok (s ++ b) -> head_ok s.
Proof. destruct s; cbn; auto. Qed.

Lemma head_ok_app a b : a <> [] -> head_ok a -> head_ok (a ++ b).
Proof. destruct a; cbn; [congruence | auto]. Qed.

Lemma strip_trimmed s : trimmed (strip s).
Proof.
  unfold trimmed, strip. split.
  - destruct (rstrip_prefix (lstrip s)) as [b H].
    apply (head_ok_prefix _ b). rewrite <- H. apply lstrip_head_ok.
  - unfold rstrip. rewrite rev_involutive. apply lstrip_head_ok.
Qed.

Lemma trimmed_strip s : trimmed s -> strip s = s.
Proof.
  intros [H1 H2]. unfold strip, rstrip.
  rewrite (lstrip_fixed s H1), (lstrip_fixed (rev s) H2). apply rev_involutive.
Qed.

Lemma truthy_nonempty s : truthy s = true -> s <> [].
Proof. destruct s; discriminate. Qed.

Lemma join_nonempty sep p ps :
  Forall (fun x => x <> []) (p :: ps) -> join sep (p :: ps) <> [].
Proof.
  intros H. inversion H as [| ? ? Hp _]; subst.
  destruct ps; cbn; [exact Hp |]. destruct p; [congruence | discriminate].
Qed.

(** Joining non-empty trimmed strings gives a trimmed string, whatever the
    separator. *)
Lemma join_trimmed sep ps :
  Forall (fun x => x <> [] /\ trimmed x) ps -> trimmed (join sep ps).
Proof.
  induction ps as [| p ps IH]; intros H; [split; exact I |].
  inversion H as [| ? ? [Hp [Hh Ht]] Hps]; subst.
  destruct ps as [| q ps]; [split; assumption |].
  specialize (IH Hps).
  assert (Hne : join sep (q :: ps) <> []).
  { apply join_nonempty. eapply Forall_impl; [| exact Hps]. cbn. tauto. }
  change (join sep (p :: q :: ps)) with (p ++ sep ++ join sep (q :: ps)).
  split.
  - apply head_ok_app; assumption.
  - rewrite !rev_app_distr, <- app_assoc. apply head_ok_app; [| apply IH].
    intros E. apply Hne. apply (f_equal (@rev N)) in E.
    rewrite rev_involutive in E. exact E.
Qed.

Lemma get_text_trimmed sep soup : trimmed (get_text sep soup).
Proof.
  unfold get_text. apply join_trimmed.
  apply Forall_forall. intros x Hx. apply filter_In in Hx as [Hin Ht].
  split; [apply truthy_nonempty; exact Ht |].
  apply in_map_iff in Hin as [y [<- _]]. apply strip_trimmed.
Qed.

(** *** The loop over the list items *)

Lemma insert_li_prefix_without_li e :
  find_all_in (py "li") e = [] -> insert_li_prefix e = e.
Proof.
  induction e as [s | s | n cs IH] using PageElement_induction;
    [reflexivity | reflexivity |].
  cbn [find_all_in insert_li_prefix]. intros H.
  apply app_eq_nil in H as [Hn Hcs].
  destruct (PyStr.eqb n (py "li")); [discriminate |]. cbn [app]. f_equal.
  induction IH as [| c cs Hc _ IHcs]; [reflexivity |].
  cbn [flat_map] in Hcs. apply app_eq_nil in Hcs as [H1 H2].
  cbn [map]. rewrite (Hc H1), (IHcs H2). reflexivity.
Qed.

Lemma text_pieces_app a b : text_pieces (a ++ b) = text_pieces a ++ text_pieces b.
Proof. unfold text_pieces. rewrite flat_map_app, map_app, filter_app. reflexivity. Qed.

Lemma text_pieces_insert e :
  length (text_pieces [insert_li_prefix e])
  = (length (text_pieces [e]) + length (find_all_in (py "li") e))%nat.
Proof.
  induction e as [s | s | n cs IH] using PageElement_induction;
    [cbn; lia | reflexivity |].
  assert (H : length (text_pieces (map insert_li_prefix cs))
              = (length (text_pieces cs)
                 + length (flat_map (find_all_in (py "li")) cs))%nat).
  { induction IH as [| c cs Hc _ IHcs]; [reflexivity |].
    cbn [map flat_map].
    change (insert_li_prefix c :: map insert_li_prefix cs)
      with ([insert_li_prefix c] ++ map insert_li_prefix cs).
    change (c :: cs) with ([c] ++ cs).
    rewrite !text_pieces_app, !length_app, Hc, IHcs. lia. }
  unfold text_pieces in *.
  cbn [insert_li_prefix _all_strings find_all_in flat_map]. rewrite !app_nil_r.
  rewrite flat_map_app, map_app, filter_app, !length_app, H.
  destruct (PyStr.eqb n (py "li")); cbn; lia.
Qed.

Lemma without_markers_insert e :
  without_markers (_all_strings (insert_li_prefix e))
  = without_markers (_all_strings e).
Proof.
  induction e as [s | s | n cs IH] using PageElement_induction;
    [reflexivity | reflexivity |].
  assert (H : without_markers (flat_map _all_strings (map insert_li_prefix cs))
              = without_markers (flat_map _all_strings cs)).
  { induction IH as [| c cs Hc _ IHcs]; [reflexivity |].
    cbn [map flat_map]. unfold without_markers in *.
    rewrite !filter_app, Hc, IHcs. reflexivity. }
  cbn [insert_li_prefix _all_strings]. unfold without_markers in *.
  rewrite flat_map_app, filter_app, H.
  destruct (PyStr.eqb n (py "li")); reflexivity.
Qed.

(** *** The widgets, from any state *)

Lemma show_in_result_textbox_run s st :
  show_in_result_textbox s st = (inr tt, with_gui (showing s (gui st)) st).
Proof.
  unfold with_gui, showing. gui_steps. rewrite app_nil_r. reflexivity.
Qed.

Lemma summary_of_found root d :
  summary_of root = Some d -> startswith (py "Source: ") d = true.
Proof.
  unfold summary_of.
  destruct (find _ _ _ root) as [el |]; [| discriminate].
  destruct (text el) as [x |]; [| discriminate].
  destruct (truthy x); [| discriminate].
  intros H; injection H as <-. reflexivity.
Qed.

Lemma startswith_nonempty p ps s : startswith (p :: ps) s = true -> s <> [].
Proof. destruct s; [discriminate | discriminate]. Qed.

Lemma wikipedia_text_nonempty term answer : wikipedia_text term answer <> [].
Proof. destruct answer as [e | summary]; [destruct e |]; discriminate. Qed.

Lemma medlineplus_text_nonempty w term st st' d :
  get_medlineplus_definition w term st = (inr (Some d), st') -> d <> [].
Proof.
  rewrite get_medlineplus_definition_run. intros H. injection H as H _.
  destruct (requests_get w base_url (params term) 10) as [e | resp].
  { destruct e; injection H as <-; discriminate. }
  destruct (error_status_dec (status_code resp)); [injection H as <-; discriminate |].
  destruct (ET_fromstring w (content resp)) as [e | root].
  { destruct e; injection H as <-; discriminate. }
  apply summary_of_found in H. exact (startswith_nonempty _ _ _ H).
Qed.

(** X1. The worker never raises and never touches a widget or the list of
    workers: it makes the primary call, or the primary call and then the
    fallback call, and hands exactly one callback to [self.after], with a
    text that is not empty. *)
Theorem perform_search_only_queues (w : World) (term : str) (st : State) :
  exists definition cs,
    perform_search w term st
    = (inr tt,
       {| gui := gui st; calls := calls st ++ cs; workers := workers st;
          after_queue := after_queue st ++ [definition] |}) /\
    definition <> [] /\
    (cs = [primary_call term] \/ cs = [primary_call term; fallback_call term]).
Proof.
  destruct (get_medlineplus_definition w term st) as [r st'] eqn:E.
  pose proof E as E'. rewrite get_medlineplus_definition_run in E'.
  injection E' as Hr _. destruct r as [e | primary]; [discriminate |].
  assert (Hp : fst (get_medlineplus_definition w term st) = inr primary)
    by (rewrite E; reflexivity).
  rewrite (perform_search_run w term st st primary Hp).
  destruct primary as [d |].
  - exists d, [primary_call term]. split; [reflexivity |].
    split; [exact (medlineplus_text_nonempty w term st st' d E) | left; reflexivity].
  - exists (wikipedia_text term (wikipedia_summary w term 4 false)),
           [primary_call term; fallback_call term].
    split; [| split; [apply wikipedia_text_nonempty | right; reflexivity]].
    unfold after, logged, log. cbn [snd gui calls workers after_queue].
    rewrite <- app_assoc. reflexivity.
Qed.

(** X2. The fallback client never raises and makes exactly one call,
    [wikipedia.summary(term, sentences=4, auto_suggest=False)]; an
    exception that is neither a [PageError] nor a [DisambiguationError]
    gives "An error occurred while fetching from Wikipedia: " followed by
    its description. *)
Theorem get_wikipedia_definition_never_raises (w : World) (term : str) (st : State) :
  exists d,
    get_wikipedia_definition w term st
    = (inr d,
       {| gui := gui st; calls := calls st ++ [WikiSummary term 4 false];
          workers := workers st; after_queue := after_queue st |}) /\
    (forall e, wikipedia_summary w term 4 false = inl e ->
               (forall x, e <> PageError x) ->
               (forall options x, e <> DisambiguationError options x) ->
               d = py "An error occurred while fetching from Wikipedia: " ++ exn_str e).
Proof.
  eexists. split; [apply get_wikipedia_definition_run |].
  intros e H P D. rewrite H. destruct e; try reflexivity.
  - exfalso. exact (P _ eq_refl).
  - exfalso. exact (D _ _ eq_refl).
Qed.

(** X3. When Wikipedia reports four candidate pages or fewer, the message
    lists all of them, in their order, and still ends with three dots. *)
Theorem disambiguation_lists_all_of_few
  (w : World) (term : str) (st : State) (options : list str) (descr : str) :
  (length options <= 4)%nat ->
  wikipedia_summary w term 4 false = inl (DisambiguationError options descr) ->
  get_wikipedia_definition w term st
  = (inr (py "The term '" ++ term ++ py "' is ambiguous on Wikipedia. "
          ++ py "Please be more specific. Some options might be: "
          ++ join (py ", ") options ++ py "..."),
     logged (fallback_call term) st).
Proof.
  intros L D. rewrite get_wikipedia_definition_run, D.
  unfold wikipedia_text, wikipedia_ambiguous. rewrite (firstn_all2 options L).
  reflexivity.
Qed.

Lemma disambiguation_lists_all_of_few_witness :
  get_wikipedia_definition two_candidates_world (py "Java") (window (py "Java"))
  = (inr (py "The term 'Java' is ambiguous on Wikipedia. Please be more specific. Some options might be: Java (island), Java (language)..."),
     logged (fallback_call (py "Java")) (window (py "Java"))).
Proof.
  apply (disambiguation_lists_all_of_few two_candidates_world (py "Java")
           (window (py "Java")) (map py ["Java (island)"; "Java (language)"]%string)
           (py "'Java' may refer to several pages.")).
  - cbn. lia.
  - reflexivity.
Defined.

(** X4. A full summary that is not empty but holds white space only counts
    as found: the primary client returns the MedlinePlus header with
    nothing after it, and the worker makes no fallback call. *)
Theorem blank_summary_is_found_empty
  (w : World) (term : str) (st : State) (resp : Response) (root el : Element)
  (c : N) (t : str) :
  requests_get w base_url (params term) 10 = inr resp ->
  ~ error_status (status_code resp) ->
  ET_fromstring w (content resp) = inr root ->
  find (py "content") (py "name") (py "FullSummary") root = Some el ->
  text el = Some (c :: t) ->
  strip (c :: t) = [] ->
  get_medlineplus_definition w term st
  = (inr (Some (py "Source: MedlinePlus (U.S. National Library of Medicine)"
                ++ [LF; LF])),
     logged (primary_call term) st) /\
  calls (snd (perform_search w term st)) = calls st ++ [primary_call term].
Proof.
  intros G S X F T B.
  assert (R : get_medlineplus_definition w term st
              = (inr (Some medlineplus_header), logged (primary_call term) st)).
  { rewrite get_medlineplus_definition_run, G, X.
    destruct (error_status_dec (status_code resp)); [contradiction |].
    unfold summary_of. rewrite F, T. cbn [truthy]. rewrite B.
    change (clean_html []) with (@nil N). rewrite app_nil_r. reflexivity. }
  split; [exact R |].
  assert (Hp : fst (get_medlineplus_definition w term st) = inr (Some medlineplus_header))
    by (rewrite R; reflexivity).
  rewrite (perform_search_run w term st st _ Hp).
  unfold after, logged, log. reflexivity.
Qed.

Lemma blank_summary_is_found_empty_witness :
  calls (snd (perform_search blank_summary_world (py "diabetes") (window (py "diabetes"))))
  = calls (window (py "diabetes")) ++ [primary_call (py "diabetes")].
Proof.
  apply (blank_summary_is_found_empty blank_summary_world (py "diabetes")
           (window (py "diabetes"))
           (response 200 "OK"
              "<nlmSearchResult><list num='1'><document rank='0'><content name='FullSummary'> </content></document></list></nlmSearchResult>")
           (topic_document (py " "))
           (mkElement (py "content") [(py "name", py "FullSummary")]
              (Some (py " ")) [])
           32%N []).
  - reflexivity.
  - unfold error_status. cbn. lia.
  - reflexivity.
  - reflexivity.
  - reflexivity.
  - reflexivity.
Defined.

(** X5. Whatever the markup, the cleaned text neither starts nor ends
    with white space: stripping it again changes nothing. *)
Theorem clean_html_is_stripped (s : str) : strip (clean_html s) = clean_html s.
Proof. apply trimmed_strip. unfold clean_html. apply get_text_trimmed. Qed.

(** X6. Markup in which [find_all('li')] finds no tag is flattened as it
    was parsed: the loop adds nothing to it. *)
Theorem clean_html_without_list_items (s : str) :
  find_all (py "li") (BeautifulSoup s) = [] ->
  clean_html s = get_text (py " ") (BeautifulSoup s).
Proof.
  intros H. unfold clean_html. f_equal.
  unfold find_all in H. induction (BeautifulSoup s) as [| e soup IH]; [reflexivity |].
  cbn [flat_map] in H. apply app_eq_nil in H as [H1 H2].
  cbn [map]. rewrite (insert_li_prefix_without_li e H1), (IH H2). reflexivity.
Qed.

Lemma clean_html_without_list_items_witness :
  clean_html (py "<p>High <b>blood</b> sugar</p>")
  = get_text (py " ") (BeautifulSoup (py "<p>High <b>blood</b> sugar</p>")).
Proof.
  apply (clean_html_without_list_items (py "<p>High <b>blood</b> sugar</p>")).
  reflexivity.
Defined.

(** X7. In the cleaned text every [li] tag of the parsed markup, nested
    or empty ones included, accounts for exactly one more piece: the
    pieces that [get_text] joins after the loop are those before it plus
    one per tag that [find_all('li')] returns. *)
Theorem one_marker_per_list_item (soup : Soup) :
  get_text (py " ") (map insert_li_prefix soup)
  = join (py " ") (text_pieces (map insert_li_prefix soup)) /\
  length (text_pieces (map insert_li_prefix soup))
  = (length (text_pieces soup) + length (find_all (py "li") soup))%nat.
Proof.
  split; [reflexivity |].
  unfold find_all. induction soup as [| e soup IH]; [reflexivity |].
  cbn [map flat_map].
  change (insert_li_prefix e :: map insert_li_prefix soup)
    with ([insert_li_prefix e] ++ map insert_li_prefix soup).
  change (e :: soup) with ([e] ++ soup).
  rewrite !text_pieces_app, !length_app, IH, text_pieces_insert. lia.
Qed.

(** X8. The loop only adds markers: the strings of the tree after the
    loop, the marker strings left out, are the strings of the parsed tree
    other than that marker, in the same order. *)
Theorem loop_only_adds_markers (soup : Soup) :
  without_markers (flat_map _all_strings (map insert_li_prefix soup))
  = without_markers (flat_map _all_strings soup).
Proof.
  induction soup as [| e soup IH]; [reflexivity |].
  cbn [map flat_map]. unfold without_markers in *.
  rewrite !filter_app, IH. f_equal. apply without_markers_insert.
Qed.

Lemma search_event_run st :
  search_event st =
  (inr tt,
   match contents (search_entry (gui st)) with
   | [] => with_gui (showing please_enter (gui st)) st
   | c :: t =>
       {| gui := busy (c :: t); calls := calls st;
          workers := workers st ++ [c :: t]; after_queue := after_queue st |}
   end).
Proof.
  unfold search_event.
  destruct (contents (search_entry (gui st))) as [| c t] eqn:E; cbn [truthy negb].
  - apply show_in_result_textbox_run.
  - unfold bind at 1. unfold modify_gui at 1. unfold bind at 1.
    unfold modify_gui at 1. unfold bind at 1.
    rewrite show_in_result_textbox_run.
    unfold with_gui, showing, busy, start_worker, on_search_button, on_search_entry,
      configure.
    cbn [gui calls workers after_queue search_entry search_button result_textbox
         contents state].
    rewrite E. reflexivity.
Qed.

Lemma update_gui_with_result_run definition st :
  update_gui_with_result definition st
  = (inr tt,
     with_gui (ready (contents (search_entry (gui st))) definition) st).
Proof.
  unfold update_gui_with_result, bind. rewrite show_in_result_textbox_run.
  unfold with_gui, showing, ready. gui_steps. reflexivity.
Qed.

(** X9. From any state of the window, [search_event] never raises and
    makes no network call itself.  With an empty entry it only replaces
    the text of the result box by "Please enter a term to search.": the
    controls stay as they are and no worker is started.  With any other
    entry it disables the entry and the button, shows
    "Searching for '<entry>'..." and starts one worker with the entry as
    typed. *)
Theorem search_event_any_window (st : State) :
  search_event st =
  (inr tt,
   match contents (search_entry (gui st)) with
   | [] => with_gui (showing (py "Please enter a term to search.") (gui st)) st
   | c :: t =>
       {| gui := busy (c :: t); calls := calls st;
          workers := workers st ++ [c :: t]; after_queue := after_queue st |}
   end).
Proof. apply search_event_run. Qed.

(** X10. From any state of the window, [update_gui_with_result] leaves
    exactly the definition in the result box, whatever the box held and
    whether it was writable, makes it read-only, and enables the entry and
    the button again, the button reading "Search"; the entry keeps its
    text, and no call is made. *)
Theorem update_gui_with_result_any_window (definition : str) (st : State) :
  update_gui_with_result definition st
  = (inr tt,
     with_gui (ready (contents (search_entry (gui st))) definition) st).
Proof. apply update_gui_with_result_run. Qed.

(** X11. A search started in any idle window whose entry is not empty
    ends as it does in a fresh window: the same text is shown and the
    same calls are made, after those already logged; the controls are
    enabled again and nothing is left waiting.  What the window showed
    before has no effect on the result. *)
Theorem search_request_from_any_idle_window
  (w : World) (st : State) (c : N) (t : str) :
  idle st ->
  contents (search_entry (gui st)) = c :: t ->
  exists shown cs,
    search_request w (window (c :: t)) = (inr tt, finished (c :: t) shown cs) /\
    search_request w st = (inr tt, finished (c :: t) shown (calls st ++ cs)).
Proof.
  intros [Hw Hq] He.
  destruct (get_medlineplus_definition w (c :: t) (window [])) as [r st'] eqn:E.
  pose proof E as E'. rewrite get_medlineplus_definition_run in E'.
  injection E' as Hr _. destruct r as [e | primary]; [discriminate |].
  assert (Hp : fst (get_medlineplus_definition w (c :: t) (window [])) = inr primary)
    by (rewrite E; reflexivity).
  rewrite (search_request_run w c t primary (window []) Hp).
  assert (G : forall d cs,
    perform_search w (c :: t)
      {| gui := busy (c :: t); calls := calls st; workers := [];
         after_queue := after_queue st |}
    = after d
        {| gui := busy (c :: t); calls := calls st ++ cs; workers := [];
           after_queue := after_queue st |} ->
    search_request w st = (inr tt, finished (c :: t) d (calls st ++ cs))).
  { intros d cs P. unfold search_request, bind.
    rewrite search_event_run, He. unfold run_workers.
    cbn [gui calls workers after_queue]. rewrite Hw. cbn [app for_each].
    unfold bind. rewrite P. unfold after. cbn [gui calls workers after_queue].
    rewrite Hq. unfold run_callbacks. cbn [app gui calls workers after_queue for_each].
    unfold bind, ret. cbn [gui calls workers after_queue for_each].
    unfold bind. rewrite update_gui_with_result_run. reflexivity. }
  rewrite (perform_search_run w (c :: t) _ (window []) primary Hp) in G.
  destruct primary as [d |]; eexists; eexists; (split; [reflexivity |]);
    apply G; unfold logged, log; cbn [snd gui calls workers after_queue];
    rewrite <- ?app_assoc; reflexivity.
Qed.

Lemma search_request_from_any_idle_window_witness :
  exists shown cs,
    search_request wikipedia_world (window (py "quark"))
    = (inr tt, finished (py "quark") shown cs) /\
    search_request wikipedia_world
      (finished (py "quark") (py "Please enter a term to search.")
         [primary_call (py "diabetes")])
    = (inr tt, finished (py "quark") shown ([primary_call (py "diabetes")] ++ cs)).
Proof.
  apply (search_request_from_any_idle_window wikipedia_world
           (finished (py "quark") (py "Please enter a term to search.")
              [primary_call (py "diabetes")])
           113%N (py "uark")).
  - split; reflexivity.
  - reflexivity.
Defined.


(** X13. When the primary response has no full-summary element and
    Wikipedia has a summary, the search shows "Source: Wikipedia", an
    empty line and the summary, after the primary call and then the
    fallback call. *)
Theorem wikipedia_fallback_end_to_end
  (w : World) (c : N) (t : str) (resp : Response) (root : Element) (summary : str) :
  requests_get w base_url (params (c :: t)) 10 = inr resp ->
  ~ error_status (status_code resp) ->
  ET_fromstring w (content resp) = inr root ->
  findall (py "content") (py "name") (py "FullSummary") root = [] ->
  wikipedia_summary w (c :: t) 4 false = inr summary ->
  search_request w (window (c :: t))
  = (inr tt,
     finished (c :: t) (py "Source: Wikipedia" ++ [LF; LF] ++ summary)
       [primary_call (c :: t); fallback_call (c :: t)]).
Proof.
  intros G S X F W.
  assert (H : fst (get_medlineplus_definition w (c :: t) (window [])) = inr None).
  { rewrite get_medlineplus_definition_run, G, X.
    destruct (error_status_dec (status_code resp)); [contradiction |].
    unfold summary_of, find. rewrite F. reflexivity. }
  rewrite (search_request_run w c t None (window []) H), W.
  unfold wikipedia_text, wikipedia_header. rewrite <- app_assoc. reflexivity.
Qed.

Lemma wikipedia_fallback_end_to_end_witness :
  search_request wikipedia_world (window (py "quark"))
  = (inr tt,
     finished (py "quark")
       (py "Source: Wikipedia" ++ [LF; LF]
        ++ py "A quark is a type of elementary particle.")
       [primary_call (py "quark"); fallback_call (py "quark")]).
Proof.
  apply (wikipedia_fallback_end_to_end wikipedia_world 113%N (py "uark")
           (response 200 "OK" "<nlmSearchResult><count>0</count></nlmSearchResult>")
           empty_document (py "A quark is a type of elementary particle.")).
  - reflexivity.
  - unfold error_status. cbn. lia.
  - reflexivity.
  - reflexivity.
  - reflexivity.
Defined.
